(** * apps/backend/main.py: the OCR service, embedded and verified

    The module builds one [PPStructureV3] engine when it is imported and
    registers two GET routes on a FastAPI application: [root] on "/" and
    [test] on "/test".  The engine, the clock and the disk are outside of the
    program; they are modelled as oracles carried by the [World], and every
    effect of the program is appended to the world's [trace]. *)

From Stdlib Require Import Ascii String Strings.Byte List Arith Bool ZArith.
From Stdlib Require Import Lia ZifyNat.
From stdpp Require Import gmap strings list.

Local Open Scope nat_scope.

(** ** Python values the module handles *)

(** Exceptions that can leave a handler.  [IndexError] is what [result[0]]
    raises on an empty list; the other two come from the collaborators. *)
Inductive PyExc : Type :=
| IndexError (msg : string)
| OSError (msg : string)
| RuntimeError (msg : string).

(** The outcome of a Python call: a value, or a raised exception. *)
Inductive Res (A : Type) : Type :=
| Ok (a : A)
| Raise (e : PyExc).
Arguments Ok {A} a.
Arguments Raise {A} e.

(** A JSON-serialisable return value of a handler: [root] returns a [str],
    [test] a [dict] whose values are both [str]. *)
Inductive PyVal : Type :=
| VStr (s : string)
| VDict (d : gmap string string).

(** ** datetime and strftime *)

Record datetime : Type := {
  year : nat; month : nat; day : nat;
  hour : nat; minute : nat; second : nat;
  microsecond : nat
}.


Definition digit_char (d : nat) : ascii := ascii_of_nat (48 + d).

(** [str(n)] for a non-negative integer: its decimal digits. *)
Fixpoint dec_digits (fuel n : nat) (acc : string) : string :=
  match fuel with
  | 0 => acc
  | S fuel' =>
      let acc' := String (digit_char (n mod 10)) acc in
      if n <? 10 then acc' else dec_digits fuel' (n / 10) acc'
  end.

Definition str_nat (n : nat) : string := dec_digits (S n) n "".

Fixpoint zeros (k : nat) : string :=
  match k with
  | 0 => ""
  | S k' => String "0" (zeros k')
  end.

(** [s.zfill(width)] on a string of digits. *)
Definition zfill (width : nat) (s : string) : string :=
  zeros (width - String.length s) +:+ s.

(** One conversion directive of [strftime]; [%Y] is the year in decimal as
    the C library prints it, with no padding (so three digits for the year
    999), the others are two-digit fields. *)
Definition directive (c : ascii) (t : datetime) : string :=
  if Ascii.eqb c "Y" then str_nat (year t)
  else if Ascii.eqb c "m" then zfill 2 (str_nat (month t))
  else if Ascii.eqb c "d" then zfill 2 (str_nat (day t))
  else if Ascii.eqb c "H" then zfill 2 (str_nat (hour t))
  else if Ascii.eqb c "M" then zfill 2 (str_nat (minute t))
  else if Ascii.eqb c "S" then zfill 2 (str_nat (second t))
  else if Ascii.eqb c "%" then "%"
  else String "%" (String c "").

(** [t.strftime(fmt)]: directives are expanded, other characters copied. *)
Fixpoint strftime (t : datetime) (fmt : string) : string :=
  match fmt with
  | EmptyString => ""
  | String c rest =>
      if Ascii.eqb c "%" then
        match rest with
        | EmptyString => "%"
        | String d rest' => directive d t +:+ strftime t rest'
        end
      else String c (strftime t rest)
  end.





(** ** The external engine: paddleocr.PPStructureV3 *)

(** The keyword arguments the module passes to the constructor. *)
Record EngineOptions : Type := {
  use_doc_orientation_classify : bool;
  use_doc_unwarping : bool;
  use_textline_orientation : bool;
  use_chart_recognition : bool;
  text_recognition_model_name : string;
  enable_mkldnn : bool;
  cpu_threads : nat
}.

(** An engine object: the options it was built with and its identity. *)
Record PPStructureV3 : Type := {
  options : EngineOptions;
  instance_id : nat
}.

(** [res.markdown]: a dict with a fixed key set; the module reads
    ["markdown_texts"] only. *)
Record MarkdownInfo : Type := {
  markdown_texts : string;
  markdown_images : list string
}.

(** One element of the list [predict] returns: one page of the input. *)
Record PageResult : Type := {
  markdown : MarkdownInfo;
  img : list string
}.

(** ** The world outside of the program *)

Inductive ArtifactKind : Type := MarkdownFile | ImageFile.

(** Every effect of the program, in the order it happens. *)
Inductive Event : Type :=
| EvPrint (line : string)
| EvNow (t : datetime)
| EvInit (engine : PPStructureV3)
| EvPredict (engine : PPStructureV3) (input : string)
| EvWrite (kind : ArtifactKind) (page : PageResult) (save_path : string)
| EvWriteFailed (kind : ArtifactKind) (page : PageResult)
                (save_path : string) (e : PyExc).

(** What the program cannot decide: the successive clock readings, whether
    the engine can be built, what it answers to its n-th call, whether the
    n-th artifact write goes through, and how a float of seconds prints. *)
Record Env : Type := {
  clock : nat -> datetime;
  engine_init : EngineOptions -> option PyExc;
  engine_out : nat -> PPStructureV3 -> string -> Res (list PageResult);
  disk : nat -> option PyExc;
  show_total_seconds : datetime -> datetime -> string
}.

Record World : Type := {
  env : Env;
  n_now : nat;
  n_engines : nat;
  n_predict : nat;
  n_write : nat;
  trace : list Event
}.

Definition log (e : Event) (w : World) : World :=
  {| env := env w; n_now := n_now w; n_engines := n_engines w;
     n_predict := n_predict w; n_write := n_write w;
     trace := trace w ++ [e] |}.

(** ** A state and exception monad for handler bodies *)

Definition M (A : Type) : Type := World -> Res A * World.

Definition ret {A} (a : A) : M A := fun w => (Ok a, w).

Definition raise {A} (e : PyExc) : M A := fun w => (Raise e, w).

Definition bind {A B} (m : M A) (k : A -> M B) : M B :=
  fun w =>
    match m w with
    | (Ok a, w') => k a w'
    | (Raise e, w') => (Raise e, w')
    end.

Notation "x <- m ;; k" := (bind m (fun x => k))
  (at level 65, m at next level, right associativity).
Notation "m ;;; k" := (bind m (fun _ => k))
  (at level 65, right associativity).

(** [for x in xs: body(x)]; an exception leaves the loop. *)
Fixpoint for_each {A} (xs : list A) (body : A -> M unit) : M unit :=
  match xs with
  | [] => ret tt
  | x :: xs' => body x ;;; for_each xs' body
  end.

(** ** Primitive effects *)

Definition print (line : string) : M unit :=
  fun w => (Ok tt, log (EvPrint line) w).

(** [datetime.now()]: the next reading of the clock. *)
Definition datetime_now : M datetime :=
  fun w =>
    let t := clock (env w) (n_now w) in
    (Ok t,
     {| env := env w; n_now := S (n_now w); n_engines := n_engines w;
        n_predict := n_predict w; n_write := n_write w;
        trace := trace w ++ [EvNow t] |}).

(** The constructor [PPStructureV3(...)]: a fresh engine object, or the
    exception the library raises when it cannot build one. *)
Definition PPStructureV3_new (opts : EngineOptions) : M PPStructureV3 :=
  fun w =>
    match engine_init (env w) opts with
    | Some exc => (Raise exc, w)
    | None =>
        let e := {| options := opts; instance_id := n_engines w |} in
        (Ok e,
         {| env := env w; n_now := n_now w; n_engines := S (n_engines w);
            n_predict := n_predict w; n_write := n_write w;
            trace := trace w ++ [EvInit e] |})
    end.

(** [self.predict(input)]: the engine's answer, a list of page results or
    an exception. *)
Definition predict (self : PPStructureV3) (input : string)
  : M (list PageResult) :=
  fun w =>
    (engine_out (env w) (n_predict w) self input,
     {| env := env w; n_now := n_now w; n_engines := n_engines w;
        n_predict := S (n_predict w); n_write := n_write w;
        trace := trace w ++ [EvPredict self input] |}).

(** One artifact write; it raises what the disk raises. *)
Definition write_artifact (kind : ArtifactKind) (res : PageResult)
    (save_path : string) : M unit :=
  fun w =>
    let w' (ev : Event) :=
      {| env := env w; n_now := n_now w; n_engines := n_engines w;
         n_predict := n_predict w; n_write := S (n_write w);
         trace := trace w ++ [ev] |} in
    match disk (env w) (n_write w) with
    | None => (Ok tt, w' (EvWrite kind res save_path))
    | Some e => (Raise e, w' (EvWriteFailed kind res save_path e))
    end.

Definition save_to_markdown (res : PageResult) (save_path : string) : M unit :=
  write_artifact MarkdownFile res save_path.

Definition save_to_img (res : PageResult) (save_path : string) : M unit :=
  write_artifact ImageFile res save_path.

(** [a - b] on two datetimes: a timedelta, kept as the two end points. *)
Definition datetime_sub (a b : datetime) : datetime * datetime := (a, b).

(** [delta.total_seconds()] as an f-string prints it; the float and its
    rendering are the environment's. *)
Definition total_seconds (delta : datetime * datetime) : M string :=
  fun w => (Ok (show_total_seconds (env w) (fst delta) (snd delta)), w).

(** [xs[i]] on a list. *)
Definition getitem {A} (xs : list A) (i : nat) : M A :=
  match xs !! i with
  | Some x => ret x
  | None => raise (IndexError "list index out of range")
  end.

(** ** main.py *)

(** [class OCRRequest(BaseModel)]: declared, used by no route. *)
Record OCRRequest : Type := { file : string }.

(** The keyword arguments of the module-level [ocr = PPStructureV3(...)]. *)
Definition ocr_options : EngineOptions :=
  {| use_doc_orientation_classify := false;
     use_doc_unwarping := false;
     use_textline_orientation := false;
     use_chart_recognition := false;
     text_recognition_model_name := "en_PP-OCRv4_mobile_rec";
     enable_mkldnn := true;
     cpu_threads := 8 |}.

(** The module's global names once it is imported. *)
Record Globals : Type := { ocr : PPStructureV3 }.

(** Importing the module runs its top level: the engine is built here. *)
Definition import_main : M Globals :=
  e <- PPStructureV3_new ocr_options ;;
  ret {| ocr := e |}.

(** [@app.get('/')  def root()]. *)
Definition root : M string :=
  print "hello world" ;;;
  ret "main chicka".

(** The aggregation step of [test]:
    [markdown = result[0].markdown["markdown_texts"]]. *)
Definition aggregate (result : list PageResult) : M string :=
  res0 <- getitem result 0 ;;
  ret (markdown_texts (markdown res0)).

(** The artifact loop of [test]:
    [for res in result: res.save_to_markdown(...); res.save_to_img(...)]. *)
Definition persist (result : list PageResult) : M unit :=
  for_each result (fun res =>
    save_to_markdown res "output" ;;;
    save_to_img res "output").

(** [@app.get("/test")  def test()]. *)
Definition test (g : Globals) : M (gmap string string) :=
  print "testing OCR" ;;;
  time_start <- datetime_now ;;
  let test_pdf := "./test1.png" in
  result <- predict (ocr g) test_pdf ;;
  markdown <- aggregate result ;;
  persist result ;;;
  print "OCR test completed" ;;;
  t <- datetime_now ;;
  let time_end := datetime_sub t time_start in
  secs <- total_seconds time_end ;;
  print ("Time taken for OCR processing: " +:+ secs +:+ " seconds") ;;;
  now <- datetime_now ;;
  ret ({[ "result" := markdown;
          "timestamp" := strftime now "%Y-%m-%d %H:%M:%S" ]}).

(** ** The FastAPI application *)

Inductive Method : Type := GET | POST | PUT | DELETE | HEAD.

Record Request : Type := {
  method : Method;
  path : string;
  body : option string
}.

Inductive Endpoint : Type := ep_root | ep_test.

(** The routes the two [@app.get] decorators register. *)
Definition route (m : Method) (p : string) : option Endpoint :=
  match m with
  | GET =>
      if String.eqb p "/" then Some ep_root
      else if String.eqb p "/test" then Some ep_test
      else None
  | _ => None
  end.

Inductive Response : Type :=
| Resp200 (content : PyVal)
| RespNoRoute
| Resp500 (e : PyExc).

(** Neither handler declares a parameter: the framework calls it with no
    argument, whatever the request carries. *)
Definition call_endpoint (g : Globals) (ep : Endpoint) : M PyVal :=
  match ep with
  | ep_root => s <- root ;; ret (VStr s)
  | ep_test => d <- test g ;; ret (VDict d)
  end.

(** One request served: the handler's value is the 200 response, an
    exception that leaves the handler is a 500. *)
Definition serve (g : Globals) (req : Request) (w : World)
  : Response * World :=
  match route (method req) (path req) with
  | None => (RespNoRoute, w)
  | Some ep =>
      match call_endpoint g ep w with
      | (Ok v, w') => (Resp200 v, w')
      | (Raise e, w') => (Resp500 e, w')
      end
  end.

(** The requests of a process, served one after the other. *)
Fixpoint serve_all (g : Globals) (reqs : list Request) (w : World)
  : list Response * World :=
  match reqs with
  | [] => ([], w)
  | req :: reqs' =>
      let (r, w1) := serve g req w in
      let (rs, w2) := serve_all g reqs' w1 in
      (r :: rs, w2)
  end.

(** A process: the module is imported once, then requests are served.  A
    failed import serves nothing. *)
Definition run_process (reqs : list Request) (w : World)
  : option Globals * list Response * World :=
  match import_main w with
  | (Ok g, w1) =>
      let (rs, w2) := serve_all g reqs w1 in (Some g, rs, w2)
  | (Raise _, w1) => (None, [], w1)
  end.

(** ** Reading a trace *)

(** The world after [k] more artifact writes that left the events [evs]. *)
Definition wrote (w : World) (k : nat) (evs : list Event) : World :=
  {| env := env w; n_now := n_now w; n_engines := n_engines w;
     n_predict := n_predict w; n_write := k + n_write w;
     trace := trace w ++ evs |}.

(** The events a run from [w] to [w'] appended. *)
Definition events_since (w w' : World) : list Event :=
  drop (length (trace w)) (trace w').

(** The artifacts that reached the disk, in the order they were written. *)
Definition writes_of (evs : list Event)
  : list (ArtifactKind * PageResult * string) :=
  omap (fun ev => match ev with
                  | EvWrite k p s => Some (k, p, s)
                  | _ => None
                  end) evs.

(** The engine objects built, in order. *)
Definition engines_built (evs : list Event) : list PPStructureV3 :=
  omap (fun ev => match ev with EvInit e => Some e | _ => None end) evs.

(** The engine calls made, in order. *)
Definition predict_calls (evs : list Event) : list (PPStructureV3 * string) :=
  omap (fun ev => match ev with
                  | EvPredict e input => Some (e, input)
                  | _ => None
                  end) evs.

(** The two artifacts of each page, page after page. *)
Definition artifacts_of (save_path : string) (pages : list PageResult)
  : list (ArtifactKind * PageResult * string) :=
  flat_map (fun p => [(MarkdownFile, p, save_path); (ImageFile, p, save_path)])
           pages.

Definition write_event (a : ArtifactKind * PageResult * string) : Event :=
  match a with (k, p, s) => EvWrite k p s end.

Definition failed_event (e : PyExc) (a : ArtifactKind * PageResult * string)
  : Event :=
  match a with (k, p, s) => EvWriteFailed k p s e end.

Definition is_write_event (ev : Event) : Prop :=
  match ev with
  | EvWrite _ _ _ | EvWriteFailed _ _ _ _ => True
  | _ => False
  end.

(** The world of [test] when the engine has answered: the handler has
    printed its first line, read the clock and called the engine. *)
Definition test_prologue (g : Globals) (w : World) : World :=
  {| env := env w; n_now := S (n_now w); n_engines := n_engines w;
     n_predict := S (n_predict w); n_write := n_write w;
     trace := trace w ++ [EvPrint "testing OCR";
                          EvNow (clock (env w) (n_now w));
                          EvPredict (ocr g) "./test1.png"] |}.

(** The world [test] leaves when the artifact loop has ended in [w2]: two
    lines printed and the clock read twice more, the last time for the
    timestamp. *)
Definition test_epilogue (time_start : datetime) (w2 : World) : World :=
  let t := clock (env w2) (n_now w2) in
  {| env := env w2; n_now := S (S (n_now w2)); n_engines := n_engines w2;
     n_predict := n_predict w2; n_write := n_write w2;
     trace := trace w2 ++
              [EvPrint "OCR test completed";
               EvNow t;
               EvPrint ("Time taken for OCR processing: "
                        +:+ show_total_seconds (env w2) t time_start
                        +:+ " seconds");
               EvNow (clock (env w2) (S (n_now w2)))] |}.

(** The envelope [test] returns. *)
Definition envelope (markdown : string) (now : datetime)
  : gmap string string :=
  {[ "result" := markdown;
     "timestamp" := strftime now "%Y-%m-%d %H:%M:%S" ]}.

(** The words "ordered concatenation of the pages' renderings": the texts
    joined in page order, [sep] between two of them. *)
Definition concat_renderings (sep : string) (pages : list PageResult)
  : string :=
  String.concat sep (map (fun p => markdown_texts (markdown p)) pages).

(** ** The payload decoder and the primary entry point

    main.py declares the request model [OCRRequest] and imports [base64]
    and [HTTPException], but holds no route that takes an [OCRRequest]: the
    decoder and the entry point that would use it are not in the module. *)

(** Modelled from the spec: the alphabet of the "text-safe byte encoding",
    which the service interface names as base64 (the route that decodes
    [OCRRequest.file] is missing from main.py).  A sextet is a number below
    64; its character is a capital, a small letter, a digit, "+" or "/". *)
Definition char_of_sextet (s : nat) : ascii :=
  if s <? 26 then ascii_of_nat (s + 65)
  else if s <? 52 then ascii_of_nat (s + 71)
  else if s <? 62 then ascii_of_nat (s - 4)
  else if s =? 62 then "+"
  else "/".

(** Modelled from the spec: the sextet a character of the base64 alphabet
    stands for (the decoder is missing from main.py); [None] for any other
    character, the padding "=" included. *)
Definition sextet_of_char (c : ascii) : option nat :=
  let n := nat_of_ascii c in
  if (65 <=? n) && (n <=? 90) then Some (n - 65)
  else if (97 <=? n) && (n <=? 122) then Some (n - 71)
  else if (48 <=? n) && (n <=? 57) then Some (n + 4)
  else if n =? 43 then Some 62
  else if n =? 47 then Some 63
  else None.

Definition byte_of_nat (n : nat) : byte :=
  match Byte.of_nat n with
  | Some b => b
  | None => x00
  end.

(** Modelled from the spec: the "reversible encoding of raw document
    bytes" of an EncodedDocument, base64 with padding (the encoder is the
    caller's; it is not in main.py).  Three bytes give four characters; a
    last group of one or two bytes is padded with "=". *)
Fixpoint b64encode (bs : list byte) : string :=
  match bs with
  | [] => ""
  | [a] =>
      let a := Byte.to_nat a in
      String (char_of_sextet (a / 4))
        (String (char_of_sextet (a mod 4 * 16)) "==")
  | [a; b] =>
      let a := Byte.to_nat a in
      let b := Byte.to_nat b in
      String (char_of_sextet (a / 4))
        (String (char_of_sextet (a mod 4 * 16 + b / 16))
           (String (char_of_sextet (b mod 16 * 4)) "="))
  | a :: b :: c :: rest =>
      let a := Byte.to_nat a in
      let b := Byte.to_nat b in
      let c := Byte.to_nat c in
      String (char_of_sextet (a / 4))
        (String (char_of_sextet (a mod 4 * 16 + b / 16))
           (String (char_of_sextet (b mod 16 * 4 + c / 64))
              (String (char_of_sextet (c mod 64)) (b64encode rest))))
  end.

(** Modelled from the spec: "[encoded] must be a valid instance of the
    text-safe byte encoding": it is the encoding of some byte buffer. *)
Definition valid_encoding (encoded : string) : Prop :=
  exists bs : list byte, b64encode bs = encoded.

Definition is_pad (c : ascii) : bool := Ascii.eqb c "=".

(** Modelled from the spec: the pure part of section 4.1 [decode], which
    main.py lacks.  Characters are read four by four; a character out of
    the alphabet, a length that is not a multiple of four (truncated
    input), padding elsewhere than at the end and stray bits under the
    padding are decoding failures, [None]. *)
Fixpoint b64decode (s : string) : option (list byte) :=
  match s with
  | EmptyString => Some []
  | String c1 (String c2 (String c3 (String c4 rest))) =>
      match sextet_of_char c1, sextet_of_char c2 with
      | Some s1, Some s2 =>
          let b1 := byte_of_nat (s1 * 4 + s2 / 16) in
          if is_pad c3 then
            if is_pad c4 && (String.length rest =? 0) && (s2 mod 16 =? 0)
            then Some [b1] else None
          else
            match sextet_of_char c3 with
            | Some s3 =>
                let b2 := byte_of_nat (s2 mod 16 * 16 + s3 / 4) in
                if is_pad c4 then
                  if (String.length rest =? 0) && (s3 mod 4 =? 0)
                  then Some [b1; b2] else None
                else
                  match sextet_of_char c4 with
                  | Some s4 =>
                      let b3 := byte_of_nat (s3 mod 4 * 64 + s4) in
                      match b64decode rest with
                      | Some bs => Some (b1 :: b2 :: b3 :: bs)
                      | None => None
                      end
                  | None => None
                  end
            | None => None
            end
      | _, _ => None
      end
  | _ => None
  end.

(** Modelled from the spec: the error taxonomy of section 7.  An engine
    failure is kept as raised; the spec sorts it under
    UnsupportedOrCorruptDocument or EngineUnavailable. *)
Inductive ServiceError : Type :=
| MalformedPayload
| EngineFailure (e : PyExc).

Inductive Outcome : Type :=
| Completed (response : gmap string string)
| Failed (err : ServiceError).

(** Modelled from the spec: section 4.4 [persist], best effort: a write
    that fails is recorded in the trace and the loop goes on. *)
Definition swallow (m : M unit) : M unit :=
  fun w => match m w with (_, w') => (Ok tt, w') end.

Definition persist_best_effort (pages : list PageResult) (outputDir : string)
  : M unit :=
  for_each pages (fun res =>
    swallow (save_to_markdown res outputDir) ;;;
    swallow (save_to_img res outputDir)).

(** Modelled from the spec: section 4.2 [extract], the engine called on
    the decoded document. *)
Definition extract (g : Globals) (bytes : list byte) : M (list PageResult) :=
  predict (ocr g) (string_of_list_byte bytes).

(** Modelled from the spec: section 4.5 [run], the entry point main.py
    lacks.  It decodes the payload (4.1), and only then reads the clock,
    calls the engine (4.2), aggregates and persists (4.3, 4.4) and builds
    the envelope.  A decoding failure is the MalformedPayload error; a
    failure of the engine is fatal to the request. *)
Definition run (g : Globals) (sep : string) (encoded : string)
    (outputDir : string) (w : World) : Outcome * World :=
  match b64decode encoded with
  | None => (Failed MalformedPayload, w)
  | Some bytes =>
      let pipeline : M (gmap string string) :=
        time_start <- datetime_now ;;
        pages <- extract g bytes ;;
        persist_best_effort pages outputDir ;;;
        t <- datetime_now ;;
        secs <- total_seconds (datetime_sub t time_start) ;;
        print ("Time taken for OCR processing: " +:+ secs +:+ " seconds") ;;;
        now <- datetime_now ;;
        ret (envelope (concat_renderings sep pages) now) in
      match pipeline w with
      | (Ok response, w') => (Completed response, w')
      | (Raise e, w') => (Failed (EngineFailure e), w')
      end
  end.

(** ** Sample worlds *)

Definition sample_time : datetime :=
  {| year := 2024; month := 3; day := 9;
     hour := 7; minute := 5; second := 1; microsecond := 250 |}.

Definition page_of (text : string) : PageResult :=
  {| markdown := {| markdown_texts := text; markdown_images := [] |};
     img := [] |}.

Definition two_pages : list PageResult :=
  [page_of "Page One Text"; page_of "Page Two Text"].

(** A world whose clock is stopped, whose engine answers [pages] to every
    call and whose disk lets every write through except those [faults] names. *)
Definition world_of (pages : list PageResult) (faults : nat -> option PyExc)
  : World :=
  {| env := {| clock := fun _ => sample_time;
               engine_init := fun _ => None;
               engine_out := fun _ _ _ => Ok pages;
               disk := faults;
               show_total_seconds := fun _ _ => "0.0" |};
     n_now := 0; n_engines := 0; n_predict := 0; n_write := 0;
     trace := [] |}.

Definition no_fault : nat -> option PyExc := fun _ => None.

(** The disk is full at the [k]-th write. *)
Definition fault_at (k : nat) : nat -> option PyExc :=
  fun n => if n =? k then Some (OSError "No space left on device") else None.

Definition get_test : Request :=
  {| method := GET; path := "/test"; body := None |}.

Definition get_root : Request :=
  {| method := GET; path := "/"; body := None |}.



(** A world whose engine raises at every call. *)
Definition world_engine_down : World :=
  {| env := {| clock := fun _ => sample_time;
               engine_init := fun _ => None;
               engine_out := fun _ _ _ => Raise (RuntimeError "predict failed");
               disk := no_fault;
               show_total_seconds := fun _ _ => "0.0" |};
     n_now := 0; n_engines := 0; n_predict := 0; n_write := 0;
     trace := [] |}.

(** Two worlds that differ by what their traces hold at most: the same
    environment, and as many clock readings, engines, engine calls and
    writes behind them. *)
Definition same_state (w1 w2 : World) : Prop :=
  env w1 = env w2 /\ n_now w1 = n_now w2 /\ n_engines w1 = n_engines w2
  /\ n_predict w1 = n_predict w2 /\ n_write w1 = n_write w2.

(** Whether a request is routed to [test]. *)
Definition reaches_test (req : Request) : bool :=
  match route (method req) (path req) with
  | Some ep_test => true
  | _ => false
  end.

Definition sample_globals : Globals :=
  {| ocr := {| options := ocr_options; instance_id := 0 |} |}.

(** * Properties *)

(** Linear arithmetic with division and remainder by constants. *)
Ltac div_lia := zify; Z.to_euclidean_division_equations; lia.

(** ** Decimal rendering and [strftime] *)

Lemma dec_digits_S fuel n acc :
  dec_digits (S fuel) n acc =
  if n <? 10 then String (digit_char (n mod 10)) acc
  else dec_digits fuel (n / 10) (String (digit_char (n mod 10)) acc).
Proof. reflexivity. Qed.

Lemma dec_digits_small fuel n acc :
  n < 10 -> dec_digits (S fuel) n acc = String (digit_char n) acc.
Proof.
  intros H. rewrite dec_digits_S.
  destruct (Nat.ltb_spec n 10); [|lia]. by rewrite Nat.mod_small.
Qed.

Lemma dec_digits_big fuel n acc :
  10 <= n ->
  dec_digits (S fuel) n acc =
  dec_digits fuel (n / 10) (String (digit_char (n mod 10)) acc).
Proof.
  intros H. rewrite dec_digits_S. by destruct (Nat.ltb_spec n 10); [lia|].
Qed.





(** Below 1000 the year is shorter: [%Y] does not pad. *)
Lemma str_nat_short n : n < 1000 -> String.length (str_nat n) < 4.
Proof.
  intros H. unfold str_nat. remember (S n) as fuel eqn:Hf.
  destruct fuel as [|f1]; [lia|].
  destruct (Nat.lt_ge_cases n 10) as [H1|H1].
  { rewrite dec_digits_small by done. simpl. lia. }
  rewrite dec_digits_big by done.
  destruct f1 as [|f2]; [lia|].
  destruct (Nat.lt_ge_cases n 100) as [H2|H2].
  { rewrite dec_digits_small by div_lia. simpl. lia. }
  rewrite dec_digits_big by div_lia.
  destruct f2 as [|f3]; [lia|].
  rewrite dec_digits_small by div_lia. simpl. lia.
Qed.




(** ** The monad and the primitive effects *)

Lemma wrote_0 w : wrote w 0 [] = w.
Proof. destruct w; unfold wrote; simpl. by rewrite app_nil_r. Qed.

Lemma wrote_wrote w a b evs1 evs2 :
  wrote (wrote w a evs1) b evs2 = wrote w (a + b) (evs1 ++ evs2).
Proof.
  unfold wrote; simpl. f_equal; [lia | by rewrite app_assoc].
Qed.

Lemma events_since_app w w' evs :
  trace w' = trace w ++ evs -> events_since w w' = evs.
Proof. unfold events_since. intros ->. apply drop_app_length. Qed.

Lemma events_since_wrote w k evs : events_since w (wrote w k evs) = evs.
Proof. by apply events_since_app. Qed.

Lemma write_artifact_ok k p s w :
  disk (env w) (n_write w) = None ->
  write_artifact k p s w = (Ok tt, wrote w 1 [EvWrite k p s]).
Proof. intros H. unfold write_artifact. by rewrite H. Qed.

Lemma write_artifact_raises k p s w e :
  disk (env w) (n_write w) = Some e ->
  write_artifact k p s w = (Raise e, wrote w 1 [EvWriteFailed k p s e]).
Proof. intros H. unfold write_artifact. by rewrite H. Qed.

(** One turn of the artifact loop. *)
Lemma persist_cons p ps w :
  persist (p :: ps) w =
  match write_artifact MarkdownFile p "output" w with
  | (Ok _, w1) =>
      match write_artifact ImageFile p "output" w1 with
      | (Ok _, w2) => persist ps w2
      | (Raise e, w2) => (Raise e, w2)
      end
  | (Raise e, w1) => (Raise e, w1)
  end.
Proof.
  unfold persist; simpl. unfold bind, save_to_markdown, save_to_img.
  destruct (write_artifact MarkdownFile p "output" w) as [[[]|e] w1]; [|done].
  by destruct (write_artifact ImageFile p "output" w1) as [[[]|e] w2].
Qed.

(** The loop only writes: it leaves the clock and the engine alone, and
    every event it appends is a write or a failed write. *)
Lemma persist_frame pages : forall w,
  exists k evs, snd (persist pages w) = wrote w k evs
                /\ Forall is_write_event evs.
Proof.
  induction pages as [|p ps IH]; intros w.
  - exists 0, []. by rewrite wrote_0.
  - rewrite persist_cons.
    destruct (disk (env w) (n_write w)) as [e|] eqn:E1.
    { rewrite (write_artifact_raises _ _ _ _ _ E1).
      eexists _, _. split; [done|]. by repeat constructor. }
    rewrite (write_artifact_ok _ _ _ _ E1).
    set (w1 := wrote w 1 [EvWrite MarkdownFile p "output"]).
    destruct (disk (env w1) (n_write w1)) as [e|] eqn:E2.
    { rewrite (write_artifact_raises _ _ _ _ _ E2).
      subst w1. rewrite wrote_wrote. eexists _, _. split; [done|].
      by repeat constructor. }
    rewrite (write_artifact_ok _ _ _ _ E2).
    destruct (IH (wrote w1 1 [EvWrite ImageFile p "output"]))
      as (k & evs & -> & Hall).
    subst w1. rewrite !wrote_wrote. eexists _, _. split; [done|].
    by repeat constructor.
Qed.

(** When the disk lets the next [2 * N] writes through, the loop writes the
    two artifacts of each of the [N] pages, page after page. *)
Lemma persist_ok pages : forall w,
  (forall i, i < 2 * length pages -> disk (env w) (i + n_write w) = None) ->
  persist pages w =
  (Ok tt, wrote w (2 * length pages)
                (write_event <$> artifacts_of "output" pages)).
Proof.
  induction pages as [|p ps IH]; intros w H.
  - simpl. by rewrite wrote_0.
  - rewrite persist_cons.
    rewrite write_artifact_ok by (apply (H 0); simpl; lia).
    rewrite write_artifact_ok by (apply (H 1); simpl; lia).
    rewrite IH.
    + rewrite !wrote_wrote. simpl. do 2 f_equal. lia.
    + intros i Hi. simpl.
      replace (i + S (S (n_write w))) with (S (S i) + n_write w) by lia.
      apply H. simpl. lia.
Qed.

(** When the [j]-th write from now is the first one the disk refuses, the
    loop stops there: the [j] artifacts before it are written, the
    exception leaves the loop and nothing is attempted after it. *)
Lemma persist_raises pages : forall w j e a,
  artifacts_of "output" pages !! j = Some a ->
  (forall i, i < j -> disk (env w) (i + n_write w) = None) ->
  disk (env w) (j + n_write w) = Some e ->
  persist pages w =
  (Raise e, wrote w (S j)
              ((write_event <$> take j (artifacts_of "output" pages))
               ++ [failed_event e a])).
Proof.
  induction pages as [|p ps IH]; intros w j e a Hj Hbefore Hfail.
  - done.
  - rewrite persist_cons. destruct j as [|[|j]].
    + simpl in Hj. injection Hj as <-.
      by rewrite (write_artifact_raises _ _ _ _ _ Hfail).
    + simpl in Hj. injection Hj as <-.
      rewrite write_artifact_ok by (apply (Hbefore 0); lia).
      rewrite (write_artifact_raises _ _ _ _ e) by done.
      by rewrite wrote_wrote.
    + rewrite write_artifact_ok by (apply (Hbefore 0); lia).
      rewrite write_artifact_ok by (apply (Hbefore 1); lia).
      rewrite (IH _ j e a).
      * rewrite !wrote_wrote. simpl. do 2 f_equal.
      * exact Hj.
      * intros i Hi. simpl.
        replace (i + S (S (n_write w))) with (S (S i) + n_write w) by lia.
        apply Hbefore. lia.
      * simpl.
        replace (j + S (S (n_write w))) with (S (S j) + n_write w) by lia.
        exact Hfail.
Qed.

(** ** The handler [test], case by case

    The engine raises; or it answers no page and [result[0]] raises; or the
    artifact loop raises; or the envelope is returned. *)
Lemma test_cases g w :
  test g w =
  let w1 := test_prologue g w in
  match engine_out (env w) (n_predict w) (ocr g) "./test1.png" with
  | Raise e => (Raise e, w1)
  | Ok [] => (Raise (IndexError "list index out of range"), w1)
  | Ok (res0 :: rest) =>
      match persist (res0 :: rest) w1 with
      | (Raise e, w2) => (Raise e, w2)
      | (Ok _, w2) =>
          (Ok (envelope (markdown_texts (markdown res0))
                        (clock (env w2) (S (n_now w2)))),
           test_epilogue (clock (env w) (n_now w)) w2)
      end
  end.
Proof.
  unfold test, bind, print, datetime_now, predict, log; simpl.
  assert (Hw :
    {| env := env w; n_now := S (n_now w); n_engines := n_engines w;
       n_predict := S (n_predict w); n_write := n_write w;
       trace := ((trace w ++ [EvPrint "testing OCR"])
                 ++ [EvNow (clock (env w) (n_now w))])
                ++ [EvPredict (ocr g) "./test1.png"] |} = test_prologue g w).
  { unfold test_prologue. f_equal. by rewrite <- !app_assoc. }
  rewrite Hw.
  destruct (engine_out (env w) (n_predict w) (ocr g) "./test1.png")
    as [[|res0 rest]|e]; [done| |done].
  unfold aggregate, getitem, bind, ret; simpl.
  destruct (persist (res0 :: rest) (test_prologue g w)) as [[[]|e] w2]; [|done].
  unfold total_seconds, datetime_sub; simpl.
  f_equal. unfold test_epilogue. f_equal. by rewrite <- !app_assoc.
Qed.

(** ** Reading the trace of a run *)

Lemma writes_of_write_events arts : writes_of (write_event <$> arts) = arts.
Proof.
  induction arts as [|[[k p] s] arts IH]; [done|].
  rewrite fmap_cons. unfold writes_of in *. simpl. f_equal. exact IH.
Qed.

Lemma writes_of_app evs1 evs2 :
  writes_of (evs1 ++ evs2) = writes_of evs1 ++ writes_of evs2.
Proof. apply omap_app. Qed.

Lemma engines_built_app evs1 evs2 :
  engines_built (evs1 ++ evs2) = engines_built evs1 ++ engines_built evs2.
Proof. apply omap_app. Qed.

Lemma predict_calls_app evs1 evs2 :
  predict_calls (evs1 ++ evs2) = predict_calls evs1 ++ predict_calls evs2.
Proof. apply omap_app. Qed.

Lemma write_events_no_engine evs :
  Forall is_write_event evs -> engines_built evs = [] /\ predict_calls evs = [].
Proof.
  induction 1 as [|ev evs Hev _ [IH1 IH2]]; [done|].
  unfold engines_built, predict_calls in *. by destruct ev; simpl; rewrite ?IH1, ?IH2.
Qed.

(** What a run of [test] appends to the trace: its first line, a clock
    reading and one engine call, on the module's engine and on the sample
    file; then events among which no engine is built and none is called. *)
Lemma test_trace g w :
  exists evs,
    trace (snd (test g w)) =
      trace w ++ [EvPrint "testing OCR"; EvNow (clock (env w) (n_now w));
                  EvPredict (ocr g) "./test1.png"] ++ evs
    /\ engines_built evs = [] /\ predict_calls evs = [].
Proof.
  rewrite test_cases. cbv zeta.
  destruct (engine_out (env w) (n_predict w) (ocr g) "./test1.png")
    as [[|res0 rest]|e].
  - exists []. by rewrite app_nil_r.
  - destruct (persist_frame (res0 :: rest) (test_prologue g w))
      as (k & evs & Hw2 & Hall).
    destruct (write_events_no_engine _ Hall) as [He Hp].
    destruct (persist (res0 :: rest) (test_prologue g w)) as [[[]|e] w2];
      simpl in Hw2; subst w2.
    + eexists (evs ++ _). simpl. rewrite <- !app_assoc. split; [reflexivity|].
      by rewrite engines_built_app, predict_calls_app, He, Hp.
    + exists evs. simpl. by rewrite <- !app_assoc.
  - exists []. by rewrite app_nil_r.
Qed.

(** Serving a request builds no engine and calls none but the module's. *)
Lemma serve_trace g req w :
  exists evs,
    trace (snd (serve g req w)) = trace w ++ evs
    /\ engines_built evs = []
    /\ Forall (fun c => c = (ocr g, "./test1.png")) (predict_calls evs).
Proof.
  unfold serve. destruct (route (method req) (path req)) as [[]|].
  - exists [EvPrint "hello world"]. done.
  - destruct (test_trace g w) as (evs & Ht & He & Hp).
    unfold call_endpoint, bind.
    destruct (test g w) as [[d|e] w']; cbn [snd] in *;
      (eexists; split; [exact Ht|]);
      rewrite engines_built_app, predict_calls_app, He, Hp;
      (split; [done|]); by repeat constructor.
  - exists []. by rewrite app_nil_r.
Qed.

Lemma serve_all_trace g reqs : forall w,
  exists evs,
    trace (snd (serve_all g reqs w)) = trace w ++ evs
    /\ engines_built evs = []
    /\ Forall (fun c => c = (ocr g, "./test1.png")) (predict_calls evs)
    /\ length (fst (serve_all g reqs w)) = length reqs.
Proof.
  induction reqs as [|req reqs IH]; intros w.
  - exists []. by rewrite app_nil_r.
  - simpl. destruct (serve_trace g req w) as (evs1 & Ht1 & He1 & Hp1).
    destruct (serve g req w) as [r w1]. simpl in Ht1.
    destruct (IH w1) as (evs2 & Ht2 & He2 & Hp2 & Hlen).
    destruct (serve_all g reqs w1) as [rs w2]. simpl in *.
    exists (evs1 ++ evs2). rewrite Ht2, Ht1, <- app_assoc.
    rewrite engines_built_app, predict_calls_app, He1, He2.
    repeat split; [|by rewrite Hlen]. by apply Forall_app.
Qed.

(** ** The envelope *)

Lemma envelope_dom markdown now :
  dom (envelope markdown now) = ({[ "result"; "timestamp" ]} : gset string).
Proof. unfold envelope. by rewrite dom_insert_L, dom_singleton_L. Qed.



(** ** The base64 codec and the primary entry point *)

Lemma sextet_of_char_of_sextet n :
  n < 64 -> sextet_of_char (char_of_sextet n) = Some n.
Proof. intros H. do 64 (destruct n as [|n]; [reflexivity|]). lia. Qed.

Lemma char_of_sextet_not_pad n : is_pad (char_of_sextet n) = false.
Proof. do 64 (destruct n as [|n]; [reflexivity|]). reflexivity. Qed.

Lemma char_of_sextet_of_char c n :
  sextet_of_char c = Some n -> char_of_sextet n = c /\ n < 64.
Proof.
  intros H.
  destruct c as [[] [] [] [] [] [] [] []]; vm_compute in H;
    first [discriminate H | injection H as <-; split; [reflexivity|lia]].
Qed.

Lemma is_pad_true c : is_pad c = true -> c = "="%char.
Proof. apply Ascii.eqb_eq. Qed.

Lemma byte_of_to_nat b : byte_of_nat (Byte.to_nat b) = b.
Proof. unfold byte_of_nat. by rewrite Byte.of_to_nat. Qed.

Lemma to_nat_byte_of n : n < 256 -> Byte.to_nat (byte_of_nat n) = n.
Proof.
  intros H. unfold byte_of_nat.
  destruct (Byte.of_nat n) as [b|] eqn:E.
  - by apply Byte.to_of_nat.
  - apply Byte.of_nat_None_iff in E. lia.
Qed.

Lemma b64decode_quad c1 c2 c3 c4 rest :
  b64decode (String c1 (String c2 (String c3 (String c4 rest)))) =
  match sextet_of_char c1, sextet_of_char c2 with
  | Some s1, Some s2 =>
      let b1 := byte_of_nat (s1 * 4 + s2 / 16) in
      if is_pad c3 then
        if is_pad c4 && (String.length rest =? 0) && (s2 mod 16 =? 0)
        then Some [b1] else None
      else
        match sextet_of_char c3 with
        | Some s3 =>
            let b2 := byte_of_nat (s2 mod 16 * 16 + s3 / 4) in
            if is_pad c4 then
              if (String.length rest =? 0) && (s3 mod 4 =? 0)
              then Some [b1; b2] else None
            else
              match sextet_of_char c4 with
              | Some s4 =>
                  let b3 := byte_of_nat (s3 mod 4 * 64 + s4) in
                  match b64decode rest with
                  | Some bs => Some (b1 :: b2 :: b3 :: bs)
                  | None => None
                  end
              | None => None
              end
        | None => None
        end
  | _, _ => None
  end.
Proof. reflexivity. Qed.

Lemma b64encode_triple a b c rest :
  b64encode (a :: b :: c :: rest) =
  String (char_of_sextet (Byte.to_nat a / 4))
    (String (char_of_sextet (Byte.to_nat a mod 4 * 16 + Byte.to_nat b / 16))
       (String (char_of_sextet (Byte.to_nat b mod 16 * 4 + Byte.to_nat c / 64))
          (String (char_of_sextet (Byte.to_nat c mod 64)) (b64encode rest)))).
Proof. reflexivity. Qed.

(** Decoding undoes encoding. *)
Lemma b64decode_encode_bounded n : forall bs,
  length bs <= n -> b64decode (b64encode bs) = Some bs.
Proof.
  induction n as [|n IH]; intros bs Hlen.
  { destruct bs; [reflexivity | simpl in Hlen; lia]. }
  destruct bs as [|a [|b [|c rest]]]; [reflexivity| | |].
  - pose proof (Byte.to_nat_bounded a).
    cbv [b64encode]. rewrite b64decode_quad.
    rewrite !sextet_of_char_of_sextet by div_lia. cbv zeta.
    change (is_pad "=") with true. cbv iota. cbn [String.length andb Nat.eqb].
    rewrite (proj2 (Nat.eqb_eq _ 0)) by div_lia.
    replace (_ + _) with (Byte.to_nat a) by div_lia.
    by rewrite byte_of_to_nat.
  - pose proof (Byte.to_nat_bounded a). pose proof (Byte.to_nat_bounded b).
    cbv [b64encode]. rewrite b64decode_quad.
    rewrite !sextet_of_char_of_sextet by div_lia. cbv zeta.
    rewrite char_of_sextet_not_pad.
    change (is_pad "=") with true. cbv iota. cbn [String.length andb Nat.eqb].
    rewrite (proj2 (Nat.eqb_eq _ 0)) by div_lia.
    replace (_ / 4 * 4 + _) with (Byte.to_nat a) by div_lia.
    replace (_ mod 16 * 16 + _) with (Byte.to_nat b) by div_lia.
    by rewrite !byte_of_to_nat.
  - pose proof (Byte.to_nat_bounded a). pose proof (Byte.to_nat_bounded b).
    pose proof (Byte.to_nat_bounded c).
    rewrite b64encode_triple, b64decode_quad.
    rewrite !sextet_of_char_of_sextet by div_lia. cbv zeta.
    rewrite !char_of_sextet_not_pad.
    rewrite IH by (simpl in Hlen; lia).
    replace (_ / 4 * 4 + _) with (Byte.to_nat a) by div_lia.
    replace (_ mod 16 * 16 + _) with (Byte.to_nat b) by div_lia.
    replace (_ mod 4 * 64 + _) with (Byte.to_nat c) by div_lia.
    by rewrite !byte_of_to_nat.
Qed.

Lemma b64decode_encode bs : b64decode (b64encode bs) = Some bs.
Proof. by apply (b64decode_encode_bounded (length bs)). Qed.

Lemma length_0_empty (s : string) : (String.length s =? 0) = true -> s = "".
Proof. by destruct s. Qed.

(** What decodes is an encoding: re-encoding the decoded bytes gives the
    string back. *)
Lemma b64encode_decode_bounded n : forall s bs,
  String.length s <= n -> b64decode s = Some bs -> b64encode bs = s.
Proof.
  induction n as [|n IH]; intros s bs Hlen Hdec.
  { destruct s; [by injection Hdec as <- | simpl in Hlen; lia]. }
  destruct s as [|c1 [|c2 [|c3 [|c4 rest]]]];
    [by injection Hdec as <- | discriminate Hdec ..|].
  rewrite b64decode_quad in Hdec.
  destruct (sextet_of_char c1) as [s1|] eqn:E1; [|discriminate].
  destruct (sextet_of_char c2) as [s2|] eqn:E2; [|discriminate].
  apply char_of_sextet_of_char in E1 as [<- H1].
  apply char_of_sextet_of_char in E2 as [<- H2].
  cbv zeta in Hdec.
  destruct (is_pad c3) eqn:P3.
  - apply is_pad_true in P3 as ->.
    destruct (is_pad c4 && (String.length rest =? 0) && (s2 mod 16 =? 0))
      eqn:C; [|discriminate].
    apply andb_true_iff in C as [C C3]. apply andb_true_iff in C as [C1 C2].
    apply is_pad_true in C1 as ->. apply length_0_empty in C2 as ->.
    apply Nat.eqb_eq in C3. apply (inj Some) in Hdec; subst bs.
    cbv [b64encode]. rewrite to_nat_byte_of by div_lia.
    replace ((s1 * 4 + s2 / 16) / 4) with s1 by div_lia.
    replace ((s1 * 4 + s2 / 16) mod 4 * 16) with s2 by div_lia.
    reflexivity.
  - destruct (sextet_of_char c3) as [s3|] eqn:E3; [|discriminate].
    apply char_of_sextet_of_char in E3 as [<- H3].
    cbv zeta in Hdec.
    destruct (is_pad c4) eqn:P4.
    + apply is_pad_true in P4 as ->.
      destruct ((String.length rest =? 0) && (s3 mod 4 =? 0)) eqn:C;
        [|discriminate].
      apply andb_true_iff in C as [C2 C3].
      apply length_0_empty in C2 as ->. apply Nat.eqb_eq in C3.
      apply (inj Some) in Hdec; subst bs.
      cbv [b64encode]. rewrite !to_nat_byte_of by div_lia.
      replace ((s1 * 4 + s2 / 16) / 4) with s1 by div_lia.
      replace ((s1 * 4 + s2 / 16) mod 4 * 16 + (s2 mod 16 * 16 + s3 / 4) / 16)
        with s2 by div_lia.
      replace ((s2 mod 16 * 16 + s3 / 4) mod 16 * 4) with s3 by div_lia.
      reflexivity.
    + destruct (sextet_of_char c4) as [s4|] eqn:E4; [|discriminate].
      apply char_of_sextet_of_char in E4 as [<- H4].
      cbv zeta in Hdec.
      destruct (b64decode rest) as [bs'|] eqn:Er; [|discriminate].
      apply (inj Some) in Hdec; subst bs.
      rewrite b64encode_triple, !to_nat_byte_of by div_lia.
      rewrite (IH rest bs') by (simpl in Hlen; lia || done).
      replace ((s1 * 4 + s2 / 16) / 4) with s1 by div_lia.
      replace ((s1 * 4 + s2 / 16) mod 4 * 16 + (s2 mod 16 * 16 + s3 / 4) / 16)
        with s2 by div_lia.
      replace ((s2 mod 16 * 16 + s3 / 4) mod 16 * 4 + (s3 mod 4 * 64 + s4) / 64)
        with s3 by div_lia.
      replace ((s3 mod 4 * 64 + s4) mod 64) with s4 by div_lia.
      reflexivity.
Qed.

Lemma b64encode_decode s bs : b64decode s = Some bs -> b64encode bs = s.
Proof. by apply (b64encode_decode_bounded (String.length s)). Qed.

(** The decoder fails exactly on the strings that are no encoding. *)
Lemma b64decode_None_iff s : b64decode s = None <-> ~ valid_encoding s.
Proof.
  split.
  - intros Hnone [bs <-]. by rewrite b64decode_encode in Hnone.
  - intros Hinv. destruct (b64decode s) as [bs|] eqn:E; [|done].
    exfalso. apply Hinv. exists bs. by apply b64encode_decode.
Qed.

(** An encoding has a length that is a multiple of four: a truncated
    payload is no encoding. *)
Lemma b64encode_length_bounded n : forall bs,
  length bs <= n -> String.length (b64encode bs) mod 4 = 0.
Proof.
  induction n as [|n IH]; intros bs Hlen.
  { destruct bs; [reflexivity | simpl in Hlen; lia]. }
  destruct bs as [|a [|b [|c rest]]]; [reflexivity..|].
  rewrite b64encode_triple. cbn [String.length].
  assert (String.length (b64encode rest) mod 4 = 0)
    by (apply IH; simpl in Hlen; lia).
  div_lia.
Qed.

Lemma truncated_not_valid s :
  String.length s mod 4 <> 0 -> ~ valid_encoding s.
Proof.
  intros Hlen [bs <-]. apply Hlen.
  by apply (b64encode_length_bounded (length bs)).
Qed.

(** An encoding is made of characters of the alphabet and of padding: a
    payload with any other character is no encoding. *)
Lemma b64encode_chars_bounded n : forall bs c,
  length bs <= n ->
  In c (list_ascii_of_string (b64encode bs)) ->
  is_pad c = true \/ exists k, c = char_of_sextet k.
Proof.
  induction n as [|n IH]; intros bs ch Hlen Hin.
  { destruct bs; [done | simpl in Hlen; lia]. }
  destruct bs as [|a [|b [|c rest]]]; [done| | |].
  - cbv [b64encode] in Hin. cbn [list_ascii_of_string In] in Hin.
    destruct Hin as [<-|[<-|[<-|[<-|[]]]]]; eauto.
  - cbv [b64encode] in Hin. cbn [list_ascii_of_string In] in Hin.
    destruct Hin as [<-|[<-|[<-|[<-|[]]]]]; eauto.
  - rewrite b64encode_triple in Hin. cbn [list_ascii_of_string In] in Hin.
    destruct Hin as [<-|[<-|[<-|[<-|Hin]]]]; eauto.
    apply (IH rest); [simpl in Hlen; lia | done].
Qed.

Lemma invalid_character_not_valid s c :
  In c (list_ascii_of_string s) ->
  sextet_of_char c = None -> is_pad c = false ->
  ~ valid_encoding s.
Proof.
  intros Hin Hsext Hpad [bs <-].
  destruct (b64encode_chars_bounded (length bs) bs c) as [Hp|[k ->]];
    [done | done | congruence |].
  assert (Hk : k < 64 \/ char_of_sextet k = char_of_sextet 63).
  { destruct (Nat.lt_ge_cases k 64) as [?|Hge]; [by left | right].
    unfold char_of_sextet at 1.
    destruct (Nat.ltb_spec k 26); [lia|].
    destruct (Nat.ltb_spec k 52); [lia|].
    destruct (Nat.ltb_spec k 62); [lia|].
    by destruct (Nat.eqb_spec k 62); [lia|]. }
  destruct Hk as [Hk|Hk].
  - by rewrite sextet_of_char_of_sextet in Hsext.
  - rewrite Hk in Hsext. discriminate Hsext.
Qed.

(** Whenever the primary entry point completes, its envelope has the two
    keys of the envelope of [test]. *)
Lemma run_completed_shape g sep encoded outputDir w d :
  fst (run g sep encoded outputDir w) = Completed d ->
  dom d = ({[ "result"; "timestamp" ]} : gset string).
Proof.
  unfold run. destruct (b64decode encoded) as [bytes|]; [|done].
  unfold bind, datetime_now, extract, predict. cbn [fst snd].
  destruct (engine_out _ _ _ _) as [pages|e]; [|done].
  destruct (persist_best_effort pages outputDir _) as [[[]|e] w2]; [|done].
  unfold total_seconds, print, ret. cbn [fst snd].
  intros [= <-]. apply envelope_dom.
Qed.


(** * The claims *)

(** C1, as stated, fails: on the two pages "Page One Text" and
    "Page Two Text" the aggregation step returns "Page One Text", which is
    the concatenation of the two renderings for no separator. *)
Lemma aggregate_is_not_concatenation :
  fst (aggregate two_pages (world_of two_pages no_fault)) = Ok "Page One Text"
  /\ ~ exists sep : string,
         fst (aggregate two_pages (world_of two_pages no_fault))
         = Ok (concat_renderings sep two_pages).
Proof.
  split; [reflexivity|]. intros [sep H]. simpl in H.
  injection H as H. by destruct sep.
Qed.

(** C1, amended: for every sequence of N >= 1 page results the aggregation
    step returns the first page's rendering verbatim, as one unit, whatever
    the later pages are; for N = 1 this is the ordered concatenation of all
    the pages' renderings. *)
Theorem aggregate_first_page :
  forall (p : PageResult) (rest : list PageResult) (sep : string) (w : World),
    aggregate (p :: rest) w = (Ok (markdown_texts (markdown p)), w)
    /\ fst (aggregate [p] w) = Ok (concat_renderings sep [p]).
Proof. intros p rest sep w. split; reflexivity. Qed.

(** C2, as stated, fails: with two pages and a disk that refuses the very
    first write, the request that would have been a 200 is a 500 carrying
    the disk's exception, and no artifact of either page is written. *)
Lemma write_failure_fails_the_request :
  fst (serve sample_globals get_test (world_of two_pages no_fault))
  = Resp200 (VDict (envelope "Page One Text" sample_time))
  /\ fst (serve sample_globals get_test (world_of two_pages (fault_at 0)))
     = Resp500 (OSError "No space left on device")
  /\ writes_of (trace (snd (serve sample_globals get_test
                                  (world_of two_pages (fault_at 0))))) = [].
Proof. repeat split; vm_compute; reflexivity. Qed.

(** C2, amended: a failure while writing an artifact ends the request.  When
    the [j]-th write of the run is the first the disk refuses, the request
    is answered by a 500 carrying the exception; the [j] artifacts before it
    are written, the refused write is the last thing the handler does, and
    no artifact after it, of this page or of a later one, is written. *)
Theorem write_failure_propagates :
  forall (g : Globals) (b : option string) (w : World)
         (pages : list PageResult) (j : nat) (e : PyExc)
         (a : ArtifactKind * PageResult * string),
    engine_out (env w) (n_predict w) (ocr g) "./test1.png" = Ok pages ->
    artifacts_of "output" pages !! j = Some a ->
    (forall i, i < j -> disk (env w) (i + n_write w) = None) ->
    disk (env w) (j + n_write w) = Some e ->
    let req := {| method := GET; path := "/test"; body := b |} in
    fst (serve g req w) = Resp500 e
    /\ events_since w (snd (serve g req w))
       = [EvPrint "testing OCR"; EvNow (clock (env w) (n_now w));
          EvPredict (ocr g) "./test1.png"]
         ++ (write_event <$> take j (artifacts_of "output" pages))
         ++ [failed_event e a]
    /\ writes_of (events_since w (snd (serve g req w)))
       = take j (artifacts_of "output" pages).
Proof.
  intros g b w pages j e a Heng Hj Hbefore Hfail req.
  assert (Hrun : serve g req w =
    (Resp500 e,
     wrote (test_prologue g w) (S j)
           ((write_event <$> take j (artifacts_of "output" pages))
            ++ [failed_event e a]))).
  { unfold serve, req; simpl. unfold bind. rewrite test_cases, Heng. cbv zeta.
    destruct pages as [|res0 rest]; [done|].
    by rewrite (persist_raises _ _ j e a). }
  rewrite Hrun. cbn [fst snd].
  assert (Hev : events_since w
      (wrote (test_prologue g w) (S j)
         ((write_event <$> take j (artifacts_of "output" pages))
          ++ [failed_event e a]))
    = [EvPrint "testing OCR"; EvNow (clock (env w) (n_now w));
       EvPredict (ocr g) "./test1.png"]
      ++ (write_event <$> take j (artifacts_of "output" pages))
      ++ [failed_event e a]).
  { apply events_since_app. simpl. by rewrite <- !app_assoc. }
  rewrite Hev. repeat split.
  rewrite !writes_of_app, writes_of_write_events.
  destruct a as [[k p] s]. simpl. by rewrite app_nil_r.
Qed.

Lemma write_failure_propagates_witness :
  let req := {| method := GET; path := "/test"; body := None |} in
  let w := world_of two_pages (fault_at 1) in
  fst (serve sample_globals req w) = Resp500 (OSError "No space left on device")
  /\ events_since w (snd (serve sample_globals req w))
     = [EvPrint "testing OCR"; EvNow sample_time;
        EvPredict (ocr sample_globals) "./test1.png"]
       ++ (write_event <$> take 1 (artifacts_of "output" two_pages))
       ++ [failed_event (OSError "No space left on device")
                        (ImageFile, page_of "Page One Text", "output")]
  /\ writes_of (events_since w (snd (serve sample_globals req w)))
     = take 1 (artifacts_of "output" two_pages).
Proof.
  apply (write_failure_propagates sample_globals None
           (world_of two_pages (fault_at 1)) two_pages 1
           (OSError "No space left on device")
           (ImageFile, page_of "Page One Text", "output")).
  - reflexivity.
  - reflexivity.
  - intros i Hi. destruct i; [reflexivity | lia].
  - reflexivity.
Defined.

(** C3: when the engine answers the empty list, [result[0]] raises
    IndexError: the aggregation step fails, and so does the request. *)
Theorem empty_result_raises :
  forall (g : Globals) (b : option string) (w : World),
    aggregate [] w = (Raise (IndexError "list index out of range"), w)
    /\ fst (serve g {| method := GET; path := "/test"; body := b |}
                    (world_of [] no_fault))
       = Resp500 (IndexError "list index out of range").
Proof. intros g b w. split; reflexivity. Qed.

(** C4: a payload that is not a valid instance of the encoding -- one that
    is the base64 encoding of no byte buffer, such as a payload with a
    character out of the alphabet or a truncated one -- makes the entry
    point fail with MalformedPayload, and the engine is not invoked: the
    world is left as it was, with no engine call in the trace. *)
Theorem malformed_payload_rejected :
  forall (g : Globals) (sep encoded outputDir : string) (w : World),
    ~ valid_encoding encoded ->
    run g sep encoded outputDir w = (Failed MalformedPayload, w)
    /\ predict_calls (events_since w (snd (run g sep encoded outputDir w)))
       = []
    /\ n_predict (snd (run g sep encoded outputDir w)) = n_predict w.
Proof.
  intros g sep encoded outputDir w Hinv.
  apply b64decode_None_iff in Hinv. unfold run. rewrite Hinv.
  repeat split. cbn [snd]. unfold events_since. by rewrite drop_all.
Qed.

Lemma malformed_payload_rejected_witness :
  let w := world_of two_pages no_fault in
  run sample_globals "" "JVBERi0x*A==" "output" w
  = (Failed MalformedPayload, w)
  /\ predict_calls
       (events_since w (snd (run sample_globals "" "JVBERi0x*A==" "output" w)))
     = []
  /\ n_predict (snd (run sample_globals "" "JVBERi0x*A==" "output" w))
     = n_predict w.
Proof.
  apply (malformed_payload_rejected sample_globals "" "JVBERi0x*A==" "output"
           (world_of two_pages no_fault)).
  apply (invalid_character_not_valid _ "*"%char).
  - vm_compute. tauto.
  - reflexivity.
  - reflexivity.
Defined.




(** C6: the engine is one object, built once when the module is imported,
    with the options written in the module: the mobile recognition model,
    the three orientation and unwarping stages and chart recognition off,
    eight CPU threads.  However many requests the process serves, no other
    engine is built, and every engine call is made on that object. *)
Theorem engine_built_once :
  forall (reqs : list Request) (w w' : World) (g : Globals)
         (rs : list Response),
    run_process reqs w = (Some g, rs, w') ->
    ocr g = {| options := ocr_options; instance_id := n_engines w |}
    /\ text_recognition_model_name (options (ocr g)) = "en_PP-OCRv4_mobile_rec"
    /\ use_doc_orientation_classify (options (ocr g)) = false
    /\ use_doc_unwarping (options (ocr g)) = false
    /\ use_textline_orientation (options (ocr g)) = false
    /\ use_chart_recognition (options (ocr g)) = false
    /\ cpu_threads (options (ocr g)) = 8
    /\ engines_built (events_since w w') = [ocr g]
    /\ Forall (fun c => fst c = ocr g) (predict_calls (events_since w w'))
    /\ length rs = length reqs.
Proof.
  intros reqs w w' g rs. unfold run_process, import_main, bind.
  unfold PPStructureV3_new.
  destruct (engine_init (env w) ocr_options) as [exc|]; [done|].
  cbn [ret].
  set (e := {| options := ocr_options; instance_id := n_engines w |}).
  set (w1 := Build_World _ _ _ _ _ _).
  destruct (serve_all_trace {| ocr := e |} reqs w1)
    as (evs & Ht & He & Hp & Hlen).
  destruct (serve_all {| ocr := e |} reqs w1) as [rs' w2].
  intros [= <- <- <-]. cbn [fst snd ocr] in *.
  do 7 (split; [reflexivity|]).
  assert (Hev : events_since w w2 = [EvInit e] ++ evs).
  { apply events_since_app. rewrite Ht. subst w1. simpl.
    by rewrite <- app_assoc. }
  rewrite Hev, engines_built_app, predict_calls_app, He.
  repeat split; [|done].
  simpl. eapply Forall_impl; [exact Hp|]. by intros c ->.
Qed.

Lemma engine_built_once_witness :
  let w := world_of two_pages no_fault in
  let out := run_process [get_test; get_root; get_test] w in
  ocr sample_globals = {| options := ocr_options; instance_id := n_engines w |}
  /\ text_recognition_model_name (options (ocr sample_globals))
     = "en_PP-OCRv4_mobile_rec"
  /\ use_doc_orientation_classify (options (ocr sample_globals)) = false
  /\ use_doc_unwarping (options (ocr sample_globals)) = false
  /\ use_textline_orientation (options (ocr sample_globals)) = false
  /\ use_chart_recognition (options (ocr sample_globals)) = false
  /\ cpu_threads (options (ocr sample_globals)) = 8
  /\ engines_built (events_since w (snd out)) = [ocr sample_globals]
  /\ Forall (fun c => fst c = ocr sample_globals)
            (predict_calls (events_since w (snd out)))
  /\ length (snd (fst out)) = length [get_test; get_root; get_test].
Proof.
  apply (engine_built_once [get_test; get_root; get_test]
           (world_of two_pages no_fault)).
  vm_compute. reflexivity.
Defined.

(** C7: the diagnostic endpoint GET /test reads no request body (two
    requests that differ by their body are served alike), runs the pipeline
    on the fixed local sample "./test1.png" (one engine call, on that file,
    on the module's engine), and when it answers 200 its content is a dict
    with exactly the keys "result" and "timestamp". *)
Theorem test_endpoint_is_diagnostic :
  forall (g : Globals) (b : option string) (w : World),
    let req := {| method := GET; path := "/test"; body := b |} in
    serve g req w
    = serve g {| method := GET; path := "/test"; body := None |} w
    /\ predict_calls (events_since w (snd (serve g req w)))
       = [(ocr g, "./test1.png")]
    /\ match fst (serve g req w) with
       | Resp200 (VDict d) =>
           dom d = ({[ "result"; "timestamp" ]} : gset string)
       | Resp200 (VStr _) => False
       | RespNoRoute => False
       | Resp500 _ => True
       end.
Proof.
  intros g b w req. split; [reflexivity|]. split.
  - destruct (test_trace g w) as (evs & Ht & _ & Hp).
    unfold serve, req; simpl. unfold bind.
    destruct (test g w) as [[d|e] w']; cbn [fst snd ret] in *;
      rewrite (events_since_app _ _ _ Ht), predict_calls_app, Hp; done.
  - unfold serve, req; simpl. unfold bind. rewrite test_cases. cbv zeta.
    destruct (engine_out (env w) (n_predict w) (ocr g) "./test1.png")
      as [[|res0 rest]|e]; [done| |done].
    destruct (persist (res0 :: rest) (test_prologue g w)) as [[[]|e] w2];
      [|done].
    apply envelope_dom.
Qed.

(** C8: the aggregation step is a deterministic function of the page
    sequence alone.  Its outcome is the same in any two worlds, it leaves
    the world as it found it, and applied twice in a row to the same
    sequence it yields the same output twice. *)
Theorem aggregate_deterministic :
  forall (pages : list PageResult) (w1 w2 : World),
    fst (aggregate pages w1) = fst (aggregate pages w2)
    /\ snd (aggregate pages w1) = w1
    /\ (r1 <- aggregate pages ;; r2 <- aggregate pages ;; ret (r1, r2)) w1
       = match fst (aggregate pages w1) with
         | Ok r => (Ok (r, r), w1)
         | Raise e => (Raise e, w1)
         end.
Proof. intros [|p ps] w1 w2; done. Qed.

(** C9, as stated, fails: with two pages and a disk that refuses the third
    write, the markdown of the second page, the first page has its two
    artifacts and the second page has none. *)
Lemma second_page_not_written :
  let w := world_of two_pages (fault_at 2) in
  engine_out (env w) (n_predict w) (ocr sample_globals) "./test1.png"
  = Ok two_pages
  /\ writes_of (events_since w (snd (serve sample_globals get_test w)))
     = [(MarkdownFile, page_of "Page One Text", "output");
        (ImageFile, page_of "Page One Text", "output")]
  /\ writes_of (events_since w (snd (serve sample_globals get_test w)))
     <> artifacts_of "output" two_pages.
Proof.
  cbv zeta. split; [reflexivity|]. split.
  - vm_compute. reflexivity.
  - vm_compute. intros H. discriminate H.
Qed.

(** C9, amended: as long as the disk lets the writes through, for every
    page of the engine's answer, the first as well as those whose text is
    not in the response, the handler writes a markdown artifact and then an
    image artifact under "output", page after page. *)
Theorem artifacts_written_in_page_order :
  forall (g : Globals) (b : option string) (w : World)
         (pages : list PageResult),
    engine_out (env w) (n_predict w) (ocr g) "./test1.png" = Ok pages ->
    (forall i, i < 2 * length pages -> disk (env w) (i + n_write w) = None) ->
    writes_of (events_since w
       (snd (serve g {| method := GET; path := "/test"; body := b |} w)))
    = flat_map (fun p => [(MarkdownFile, p, "output"); (ImageFile, p, "output")])
               pages.
Proof.
  intros g b w pages Heng Hdisk.
  unfold serve; simpl. unfold bind. rewrite test_cases, Heng. cbv zeta.
  destruct pages as [|res0 rest].
  - cbn [fst snd]. erewrite events_since_app by (simpl; reflexivity). done.
  - rewrite persist_ok by exact Hdisk. cbn [fst snd].
    erewrite events_since_app.
    2:{ simpl. rewrite <- !app_assoc. reflexivity. }
    rewrite !writes_of_app.
    rewrite <- (writes_of_write_events (flat_map _ (res0 :: rest))).
    exact (app_nil_r
             (writes_of (write_event <$> artifacts_of "output" (res0 :: rest)))).
Qed.

Lemma artifacts_written_in_page_order_witness :
  writes_of (events_since (world_of two_pages no_fault)
     (snd (serve sample_globals
                 {| method := GET; path := "/test"; body := None |}
                 (world_of two_pages no_fault))))
  = [(MarkdownFile, page_of "Page One Text", "output");
     (ImageFile, page_of "Page One Text", "output");
     (MarkdownFile, page_of "Page Two Text", "output");
     (ImageFile, page_of "Page Two Text", "output")].
Proof.
  apply (artifacts_written_in_page_order sample_globals None
           (world_of two_pages no_fault) two_pages).
  - reflexivity.
  - intros i Hi. reflexivity.
Defined.

(** C10: the root endpoint is a constant operation.  Whatever the request
    carries and whatever requests the process served before, [root] returns
    the string "main chicka", which the service answers as a 200. *)
Theorem root_returns_main_chicka :
  forall (g : Globals) (reqs : list Request) (b : option string) (w : World),
    fst (root w) = Ok "main chicka"
    /\ fst (serve g {| method := GET; path := "/"; body := b |}
                    (snd (serve_all g reqs w)))
       = Resp200 (VStr "main chicka").
Proof. intros g reqs b w. split; reflexivity. Qed.

(** * Further properties of main.py *)

(** ** The artifact loop under any disk *)

(** Whatever the disk does, what the loop has written is a prefix of the
    two artifacts per page, in page order. *)
Lemma persist_writes_prefix pages : forall w,
  exists k evs,
    snd (persist pages w) = wrote w k evs
    /\ writes_of evs `prefix_of` artifacts_of "output" pages.
Proof.
  induction pages as [|p ps IH]; intros w.
  - exists 0, []. by rewrite wrote_0.
  - rewrite persist_cons.
    destruct (disk (env w) (n_write w)) as [e|] eqn:E1.
    { rewrite (write_artifact_raises _ _ _ _ _ E1).
      eexists _, _. split; [done|]. apply prefix_nil. }
    rewrite (write_artifact_ok _ _ _ _ E1).
    set (w1 := wrote w 1 [EvWrite MarkdownFile p "output"]).
    destruct (disk (env w1) (n_write w1)) as [e|] eqn:E2.
    { rewrite (write_artifact_raises _ _ _ _ _ E2).
      subst w1. rewrite wrote_wrote. eexists _, _. split; [done|].
      apply (prefix_cons (MarkdownFile, p, "output")), prefix_nil. }
    rewrite (write_artifact_ok _ _ _ _ E2).
    destruct (IH (wrote w1 1 [EvWrite ImageFile p "output"]))
      as (k & evs & -> & Hpre).
    subst w1. rewrite !wrote_wrote. eexists _, _. split; [done|].
    rewrite !writes_of_app.
    apply (prefix_cons (MarkdownFile, p, "output")).
    apply (prefix_cons (ImageFile, p, "output")). exact Hpre.
Qed.

(** The loop ends without an exception only when the disk let all of its
    [2 * N] writes through. *)
Lemma persist_Ok_inv pages : forall w w',
  persist pages w = (Ok tt, w') ->
  forall i, i < 2 * length pages -> disk (env w) (i + n_write w) = None.
Proof.
  induction pages as [|p ps IH]; intros w w' Hrun i Hi.
  - simpl in Hi. lia.
  - rewrite persist_cons in Hrun.
    destruct (disk (env w) (n_write w)) as [e|] eqn:E1.
    { by rewrite (write_artifact_raises _ _ _ _ _ E1) in Hrun. }
    rewrite (write_artifact_ok _ _ _ _ E1) in Hrun.
    set (w1 := wrote w 1 [EvWrite MarkdownFile p "output"]) in *.
    destruct (disk (env w1) (n_write w1)) as [e|] eqn:E2.
    { by rewrite (write_artifact_raises _ _ _ _ _ E2) in Hrun. }
    rewrite (write_artifact_ok _ _ _ _ E2) in Hrun.
    destruct i as [|[|i]]; [exact E1 | exact E2 |].
    specialize (IH _ _ Hrun i). simpl in IH.
    replace (S (S i) + n_write w) with (i + S (S (n_write w))) by lia.
    apply IH. simpl in Hi. lia.
Qed.

(** The outcome of the loop does not depend on the trace. *)
Lemma persist_same_state pages : forall w1 w2,
  same_state w1 w2 ->
  fst (persist pages w1) = fst (persist pages w2)
  /\ same_state (snd (persist pages w1)) (snd (persist pages w2)).
Proof.
  assert (Hstep : forall k p s w1 w2,
    same_state w1 w2 ->
    fst (write_artifact k p s w1) = fst (write_artifact k p s w2)
    /\ same_state (snd (write_artifact k p s w1))
                  (snd (write_artifact k p s w2))).
  { intros k p s w1 w2 (He & Hn & Hg & Hp & Hw). unfold write_artifact.
    rewrite He, Hw. destruct (disk (env w2) (n_write w2));
      (split; [done|]); repeat split; simpl; congruence. }
  induction pages as [|p ps IH]; intros w1 w2 Hs; [done|].
  rewrite !persist_cons.
  destruct (Hstep MarkdownFile p "output" w1 w2 Hs) as [Hr1 Hs1].
  destruct (write_artifact MarkdownFile p "output" w1) as [[[]|e1] w1'];
    destruct (write_artifact MarkdownFile p "output" w2) as [[[]|e2] w2'];
    simpl in Hr1, Hs1; try discriminate; [|by simplify_eq].
  destruct (Hstep ImageFile p "output" w1' w2' Hs1) as [Hr2 Hs2].
  destruct (write_artifact ImageFile p "output" w1') as [[[]|e1] w1''];
    destruct (write_artifact ImageFile p "output" w2') as [[[]|e2] w2''];
    simpl in Hr2, Hs2; try discriminate; [|by simplify_eq].
  by apply IH.
Qed.

(** The answer of [test] does not depend on the trace. *)
Lemma test_same_state g w1 w2 :
  same_state w1 w2 -> fst (test g w1) = fst (test g w2).
Proof.
  intros (He & Hn & Hg & Hp & Hw). rewrite !test_cases. cbv zeta.
  rewrite He, Hp.
  destruct (engine_out (env w2) (n_predict w2) (ocr g) "./test1.png")
    as [[|res0 rest]|e]; [done| |done].
  assert (Hs : same_state (test_prologue g w1) (test_prologue g w2)).
  { repeat split; simpl; congruence. }
  destruct (persist_same_state (res0 :: rest) _ _ Hs)
    as [Hr (He' & Hn' & _)].
  destruct (persist (res0 :: rest) (test_prologue g w1)) as [[[]|e1] w1'];
    destruct (persist (res0 :: rest) (test_prologue g w2)) as [[[]|e2] w2'];
    simpl in *; try discriminate; [|by simplify_eq].
  by rewrite He', Hn'.
Qed.

(** What one served request adds to the engine calls: one call on the
    sample when it is routed to [test], none otherwise. *)
Lemma serve_predict_calls g req w :
  exists evs,
    trace (snd (serve g req w)) = trace w ++ evs
    /\ predict_calls evs
       = if reaches_test req then [(ocr g, "./test1.png")] else [].
Proof.
  unfold serve, reaches_test.
  destruct (route (method req) (path req)) as [[]|].
  - by exists [EvPrint "hello world"].
  - destruct (test_trace g w) as (evs & Ht & _ & Hp).
    unfold call_endpoint, bind.
    destruct (test g w) as [[d|e] w']; cbn [snd] in *;
      (eexists; split; [exact Ht|]); by rewrite predict_calls_app, Hp.
  - exists []. by rewrite app_nil_r.
Qed.

(** ** Requests that fail, requests that succeed *)

(** X1: when the engine raises, the request fails with the engine's
    exception, and the handler has done nothing but print its first line,
    read the clock and call the engine: no artifact, no completion line. *)
Theorem engine_failure_fails_the_request :
  forall (g : Globals) (b : option string) (w : World) (e : PyExc),
    engine_out (env w) (n_predict w) (ocr g) "./test1.png" = Raise e ->
    let req := {| method := GET; path := "/test"; body := b |} in
    fst (serve g req w) = Resp500 e
    /\ events_since w (snd (serve g req w))
       = [EvPrint "testing OCR"; EvNow (clock (env w) (n_now w));
          EvPredict (ocr g) "./test1.png"].
Proof.
  intros g b w e Heng req.
  unfold serve, req; simpl. unfold bind. rewrite test_cases, Heng. cbv zeta.
  cbn [fst snd]. split; [done|]. by apply events_since_app.
Qed.

Lemma engine_failure_fails_the_request_witness :
  fst (serve sample_globals get_test world_engine_down)
  = Resp500 (RuntimeError "predict failed")
  /\ events_since world_engine_down
       (snd (serve sample_globals get_test world_engine_down))
     = [EvPrint "testing OCR"; EvNow sample_time;
        EvPredict (ocr sample_globals) "./test1.png"].
Proof.
  apply (engine_failure_fails_the_request sample_globals None
           world_engine_down (RuntimeError "predict failed")).
  reflexivity.
Defined.

(** X2: on a request that goes through, the effects of the handler are, in
    this order: its first line, a clock reading, the engine call, the two
    artifacts of each page, the completion line, a second clock reading, the
    line of the time taken, measured from the first reading to the second,
    and a third clock reading, which is the one the timestamp shows. *)
Theorem successful_request_trace :
  forall (g : Globals) (b : option string) (w : World)
         (p : PageResult) (rest : list PageResult),
    engine_out (env w) (n_predict w) (ocr g) "./test1.png" = Ok (p :: rest) ->
    (forall i, i < 2 * length (p :: rest) ->
               disk (env w) (i + n_write w) = None) ->
    let req := {| method := GET; path := "/test"; body := b |} in
    let t0 := clock (env w) (n_now w) in
    let t1 := clock (env w) (S (n_now w)) in
    let t2 := clock (env w) (S (S (n_now w))) in
    fst (serve g req w)
    = Resp200 (VDict (envelope (markdown_texts (markdown p)) t2))
    /\ events_since w (snd (serve g req w))
       = [EvPrint "testing OCR"; EvNow t0; EvPredict (ocr g) "./test1.png"]
         ++ (write_event <$> artifacts_of "output" (p :: rest))
         ++ [EvPrint "OCR test completed"; EvNow t1;
             EvPrint ("Time taken for OCR processing: "
                      +:+ show_total_seconds (env w) t1 t0 +:+ " seconds");
             EvNow t2].
Proof.
  intros g b w p rest Heng Hdisk req t0 t1 t2.
  unfold serve, req; simpl. unfold bind. rewrite test_cases, Heng. cbv zeta.
  rewrite persist_ok by exact Hdisk. cbn [fst snd ret].
  split; [reflexivity|].
  apply events_since_app. cbn [test_epilogue test_prologue wrote trace].
  by rewrite <- !app_assoc.
Qed.

Lemma successful_request_trace_witness :
  let w := world_of two_pages no_fault in
  fst (serve sample_globals get_test w)
  = Resp200 (VDict (envelope "Page One Text" sample_time))
  /\ events_since w (snd (serve sample_globals get_test w))
     = [EvPrint "testing OCR"; EvNow sample_time;
        EvPredict (ocr sample_globals) "./test1.png"]
       ++ (write_event <$> artifacts_of "output" two_pages)
       ++ [EvPrint "OCR test completed"; EvNow sample_time;
           EvPrint ("Time taken for OCR processing: " +:+ "0.0" +:+ " seconds");
           EvNow sample_time].
Proof.
  apply (successful_request_trace sample_globals None
           (world_of two_pages no_fault)
           (page_of "Page One Text") [page_of "Page Two Text"]).
  - reflexivity.
  - intros i Hi. reflexivity.
Defined.

(** X3: a request to /test is answered 200 exactly when the engine answers
    at least one page and the disk lets the two writes of every page
    through; in every other case it fails. *)
Theorem request_succeeds_iff :
  forall (g : Globals) (b : option string) (w : World),
    (exists v, fst (serve g {| method := GET; path := "/test"; body := b |} w)
               = Resp200 v)
    <-> exists (p : PageResult) (rest : list PageResult),
          engine_out (env w) (n_predict w) (ocr g) "./test1.png"
          = Ok (p :: rest)
          /\ forall i, i < 2 * length (p :: rest) ->
                       disk (env w) (i + n_write w) = None.
Proof.
  intros g b w. unfold serve; simpl. unfold bind. rewrite test_cases.
  cbv zeta. split.
  - intros [v Hv].
    destruct (engine_out (env w) (n_predict w) (ocr g) "./test1.png")
      as [[|p rest]|e]; [done| |done].
    destruct (persist (p :: rest) (test_prologue g w)) as [[[]|e] w2] eqn:Hp;
      [|done].
    exists p, rest. split; [done|]. intros i Hi.
    exact (persist_Ok_inv _ _ _ Hp i Hi).
  - intros (p & rest & -> & Hdisk).
    rewrite persist_ok by exact Hdisk. by eexists.
Qed.

(** X4: whatever the disk does, the artifacts a request has written are a
    prefix of the two artifacts per page in page order: a page never has
    its image without its markdown, and no page is written before the
    pages in front of it are complete. *)
Theorem artifacts_written_prefix :
  forall (g : Globals) (b : option string) (w : World)
         (pages : list PageResult),
    engine_out (env w) (n_predict w) (ocr g) "./test1.png" = Ok pages ->
    writes_of (events_since w
       (snd (serve g {| method := GET; path := "/test"; body := b |} w)))
    `prefix_of` artifacts_of "output" pages.
Proof.
  intros g b w pages Heng.
  unfold serve; simpl. unfold bind. rewrite test_cases, Heng. cbv zeta.
  destruct pages as [|p rest].
  - cbn [fst snd]. erewrite events_since_app by (simpl; reflexivity).
    apply prefix_nil.
  - destruct (persist_writes_prefix (p :: rest) (test_prologue g w))
      as (k & evs & Hw2 & Hpre).
    destruct (persist (p :: rest) (test_prologue g w)) as [[[]|e] w2];
      cbn [snd] in Hw2; subst w2; cbn [fst snd ret].
    + erewrite events_since_app.
      2:{ cbn [test_epilogue test_prologue wrote trace].
          rewrite <- !app_assoc. reflexivity. }
      rewrite !writes_of_app.
      replace (writes_of evs) with ([] ++ writes_of evs ++ []) in Hpre
        by (by rewrite app_nil_r).
      exact Hpre.
    + erewrite events_since_app.
      2:{ cbn [test_prologue wrote trace].
          rewrite <- !app_assoc. reflexivity. }
      rewrite !writes_of_app. exact Hpre.
Qed.

Lemma artifacts_written_prefix_witness :
  writes_of (events_since (world_of two_pages (fault_at 1))
     (snd (serve sample_globals
                 {| method := GET; path := "/test"; body := None |}
                 (world_of two_pages (fault_at 1)))))
  `prefix_of` artifacts_of "output" two_pages.
Proof.
  apply (artifacts_written_prefix sample_globals None
           (world_of two_pages (fault_at 1)) two_pages).
  reflexivity.
Defined.

(** The requests routed to [test] are the GET requests on "/test". *)
Lemma reaches_test_iff req :
  reaches_test req = true <-> method req = GET /\ path req = "/test".
Proof.
  unfold reaches_test, route. destruct (method req); try (split; [done|by intros [? _]]).
  destruct (String.eqb_spec (path req) "/") as [->|_]; [split; [done|by intros [_ ?]]|].
  destruct (String.eqb_spec (path req) "/test") as [->|Hne]; [done|].
  split; [done|]. by intros [_ ?].
Qed.

(** ** Requests one after the other *)

(** X5: serving GET / only prints "hello world": it reads no clock, builds
    and calls no engine, writes no artifact; and a request to /test served
    after it is answered as it would have been without it. *)
Theorem root_only_prints :
  forall (g : Globals) (b b' : option string) (w : World),
    let w' := snd (serve g {| method := GET; path := "/"; body := b |} w) in
    events_since w w' = [EvPrint "hello world"]
    /\ same_state w w'
    /\ fst (serve g {| method := GET; path := "/test"; body := b' |} w')
       = fst (serve g {| method := GET; path := "/test"; body := b' |} w).
Proof.
  intros g b b' w w'.
  assert (Hs : same_state w' w) by done.
  split; [by apply events_since_app|]. split; [done|].
  pose proof (test_same_state g w' w Hs) as Ht.
  unfold serve; simpl. unfold bind.
  destruct (test g w') as [[d1|e1] w1]; destruct (test g w) as [[d2|e2] w2];
    simpl in *; by simplify_eq.
Qed.

(** X6: over any sequence of requests, the engine is called once for each
    request routed to /test, always on the module's engine and on the file
    "./test1.png", and never for any other request. *)
Theorem engine_called_once_per_test_request :
  forall (g : Globals) (reqs : list Request) (w : World),
    predict_calls (events_since w (snd (serve_all g reqs w)))
    = replicate (length (List.filter reaches_test reqs))
                (ocr g, "./test1.png").
Proof.
  intros g reqs.
  assert (H : forall w, exists evs,
    trace (snd (serve_all g reqs w)) = trace w ++ evs
    /\ predict_calls evs
       = replicate (length (List.filter reaches_test reqs))
                   (ocr g, "./test1.png")).
  { induction reqs as [|req reqs IH]; intros w.
    - exists []. by rewrite app_nil_r.
    - simpl. destruct (serve_predict_calls g req w) as (evs1 & Ht1 & Hp1).
      destruct (serve g req w) as [r w1]. cbn [snd] in Ht1.
      destruct (IH w1) as (evs2 & Ht2 & Hp2).
      destruct (serve_all g reqs w1) as [rs w2]. cbn [snd] in *.
      exists (evs1 ++ evs2). rewrite Ht2, Ht1, <- app_assoc.
      split; [done|]. rewrite predict_calls_app, Hp1, Hp2.
      by destruct (reaches_test req). }
  intros w. destruct (H w) as (evs & Ht & Hp).
  by rewrite (events_since_app _ _ _ Ht).
Qed.
